(** * lshash/storage.py: the storage adapters of an LSH index

    A shallow embedding of [lshash/storage.py]: the factory [storage] and the
    three adapters [InMemoryStorage], [RedisStorage] and [CassandraStorage],
    with the properties of the storage layer stated and proved about them.

    Python objects are values of [pyval]; a call that can raise returns a
    [result]; a method that mutates its receiver returns the receiver after
    the call next to its outcome, so that a caller that catches the exception
    keeps the right state. The client libraries ([redis], [cql], [numpy],
    [scipy], [pickle]) are not part of the module: their encoders are taken
    as parameters ([Libraries]) and the two remote stores are small reference
    models ([StrictRedis], [CqlClient]). *)

From stdpp Require Import gmap strings list fin_maps.

Set Warnings "-register-all".
Open Scope string_scope.
Open Scope list_scope.

(** ** Python values, exceptions and results *)

Inductive pyval : Type :=
| PyNone
| PyInt (n : Z)
| PyStr (s : string)
| PyList (l : list pyval)
| PyDict (d : gmap string pyval).

Inductive exn : Type :=
| ValueError (msg : string)
| ImportError (msg : string)
| NameError (name : string)
| KeyError (key : string)
| IndexError (msg : string)
| TypeError (msg : string)
| AttributeError (msg : string)
| ResponseError (msg : string)      (* redis.exceptions.ResponseError *)
| ProgrammingError (msg : string).  (* cql.ProgrammingError *)

Inductive result (A : Type) : Type :=
| Ok (a : A)
| Raise (e : exn).
Arguments Ok {A} a.
Arguments Raise {A} e.

#[global] Instance result_ret : MRet result := fun A a => Ok a.
#[global] Instance result_bind : MBind result :=
  fun A B f m => match m with Ok a => f a | Raise e => Raise e end.
#[global] Instance result_fmap : FMap result :=
  fun A B f m => match m with Ok a => Ok (f a) | Raise e => Raise e end.

(** [obj[key]] for a string key. *)
Definition getitem (obj : pyval) (key : string) : result pyval :=
  match obj with
  | PyDict d =>
      match d !! key with
      | Some v => Ok v
      | None => Raise (KeyError key)
      end
  | PyList _ => Raise (TypeError "list indices must be integers, not str")
  | PyStr _ => Raise (TypeError "string indices must be integers, not str")
  | PyInt _ => Raise (TypeError "'int' object has no attribute '__getitem__'")
  | PyNone => Raise (TypeError "'NoneType' object has no attribute '__getitem__'")
  end.

(** [obj[key] = val] for a string key: the object after the assignment (the
    assignment mutates the dict in place, every holder of it sees the field). *)
Definition setitem (obj : pyval) (key : string) (val : pyval) : result pyval :=
  match obj with
  | PyDict d => Ok (PyDict (<[key := val]> d))
  | PyList _ => Raise (TypeError "list indices must be integers, not str")
  | PyStr _ => Raise (TypeError "'str' object does not support item assignment")
  | PyInt _ => Raise (TypeError "'int' object does not support item assignment")
  | PyNone => Raise (TypeError "'NoneType' object does not support item assignment")
  end.

(** [**obj]: the keyword arguments a mapping unpacks to. *)
Definition kwargs_of (obj : pyval) : result (gmap string pyval) :=
  match obj with
  | PyDict d => Ok d
  | _ => Raise (TypeError "argument after ** must be a mapping")
  end.

(** ** The module's global names

    Lines 7-25 and the [def]/[class] statements bind these names, and no
    other. [redis] and [cql] are bound also when their import fails (to
    [None]). No builtin is called [json]. *)
Definition module_globals : list string :=
  [ "ujson"; "pickle"; "csr_matrix"; "array"; "logging"; "redis"; "cql";
    "__all__"; "storage"; "BaseStorage"; "InMemoryStorage"; "RedisStorage";
    "CassandraStorage" ].

(** Reading a global name inside a function body. *)
Definition load_global (name : string) : result unit :=
  if bool_decide (name ∈ module_globals) then Ok tt else Raise (NameError name).
Arguments load_global : simpl never.

(** ** The encoders of the client libraries *)
Class Libraries : Type := {
  ndarray : Type;
  csr : Type;
  (** [numpy.array], [scipy.sparse.csr_matrix], [cPickle.dumps] *)
  array : pyval -> result ndarray;
  csr_matrix : ndarray -> result csr;
  pickle_dumps : csr -> result string;
  (** [dumps] of a JSON module *)
  json_dumps : pyval -> result string;
  (** how redis-py turns a value into the bytes it sends *)
  redis_encode : pyval -> string;
  (** the glob matching of the Redis server's KEYS: pattern, then key *)
  glob_match : string -> string -> bool
}.

(** ** redis-py's [StrictRedis], as far as the adapter calls it *)
Module StrictRedis.

Inductive entry : Type :=
| RString (s : string)
| RList (l : list string).

(** The content of the database the connection parameters designate. *)
Abbreviation server := (gmap string entry).

Record client : Type := {
  connection_kwargs : gmap string pyval;
  db : gmap string entry
}.

Definition wrongtype : exn :=
  ResponseError "WRONGTYPE Operation against a key holding the wrong kind of value".

(** [redis.StrictRedis] called with the keyword arguments [kwargs] *)
Definition new (srv : server) (kwargs : gmap string pyval) : client :=
  {| connection_kwargs := kwargs; db := srv |}.

Definition keys `{Libraries} (c : client) (pattern : string) : result pyval :=
  Ok (PyList (PyStr <$> filter (fun k => glob_match pattern k = true) (elements (dom (db c))))).

Definition set `{Libraries} (c : client) (key : string) (val : pyval) : client :=
  {| connection_kwargs := connection_kwargs c;
     db := <[key := RString (redis_encode val)]> (db c) |}.

Definition get (c : client) (key : string) : result pyval :=
  match db c !! key with
  | None => Ok PyNone
  | Some (RString s) => Ok (PyStr s)
  | Some (RList _) => Raise wrongtype
  end.

Definition rpush (c : client) (key : string) (s : string) : client * result pyval :=
  match db c !! key with
  | None =>
      ({| connection_kwargs := connection_kwargs c; db := <[key := RList [s]]> (db c) |},
       Ok (PyInt 1))
  | Some (RList l) =>
      ({| connection_kwargs := connection_kwargs c; db := <[key := RList (l ++ [s])]> (db c) |},
       Ok (PyInt (Z.of_nat (length l) + 1)))
  | Some (RString _) => (c, Raise wrongtype)
  end.

(** The range arithmetic of the server's LRANGE. *)
Definition slice (l : list string) (start stop : Z) : list string :=
  let llen := Z.of_nat (length l) in
  let start := if decide (start < 0)%Z then (llen + start)%Z else start in
  let stop := if decide (stop < 0)%Z then (llen + stop)%Z else stop in
  let start := if decide (start < 0)%Z then 0%Z else start in
  if decide (start > stop \/ start >= llen)%Z then []
  else
    let stop := if decide (stop >= llen)%Z then (llen - 1)%Z else stop in
    take (Z.to_nat (stop - start + 1)) (drop (Z.to_nat start) l).

Definition lrange (c : client) (key : string) (start stop : Z) : result pyval :=
  match db c !! key with
  | None => Ok (PyList [])
  | Some (RList l) => Ok (PyList (PyStr <$> slice l start stop))
  | Some (RString _) => Raise wrongtype
  end.

End StrictRedis.

(** ** The [cql] driver, as far as the adapter calls it

    A cluster holds, per keyspace, the rows of the one table [lsh(key, val)]
    the adapter assumes. An INSERT adds a row; a SELECT yields the matching
    rows in the order the table holds them. Whether a store keeps an earlier
    row of the same key, and in which order it yields rows, is the store's:
    the properties below are stated so as not to depend on either. *)
Module CqlClient.

Abbreviation row := (list pyval).
Abbreviation table := (list (string * pyval)).
Abbreviation cluster := (gmap string (list (string * pyval))).

Record connection : Type := {
  host : pyval;
  port : pyval;
  cql_version : string;
  cluster_state : gmap string (list (string * pyval));
  keyspace : option string
}.

(** The statements the adapter executes, with their bound parameters. *)
Inductive statement : Type :=
| USE (ks : pyval)                           (* USE %s *)
| SELECT_key                                 (* SELECT key FROM lsh *)
| INSERT (key : string) (val : pyval)        (* INSERT INTO lsh (key, val) VALUES (:key, :val) *)
| SELECT_val (key : string) (limit1 : bool). (* SELECT val FROM lsh WHERE key=:key [LIMIT 1] *)

(** [cql.connect(host, port, cql_version=...)] *)
Definition connect (cl : cluster) (h p : pyval) (version : string) : result connection :=
  Ok {| host := h; port := p; cql_version := version;
        cluster_state := cl; keyspace := None |}.

Definition current_table (c : connection) : result (string * table) :=
  match keyspace c with
  | None => Raise (ProgrammingError "no keyspace has been specified")
  | Some ks =>
      match cluster_state c !! ks with
      | Some t => Ok (ks, t)
      | None => Raise (ProgrammingError "keyspace does not exist")
      end
  end.

Definition with_table (c : connection) (ks : string) (t : table) : connection :=
  {| host := host c; port := port c; cql_version := cql_version c;
     cluster_state := <[ks := t]> (cluster_state c); keyspace := keyspace c |}.

(** [cursor.execute(statement, params)]: the connection afterwards and the
    rows the cursor then holds. *)
Definition execute (c : connection) (q : statement) : connection * result (list row) :=
  match q with
  | USE (PyStr ks) =>
      match cluster_state c !! ks with
      | Some _ =>
          ({| host := host c; port := port c; cql_version := cql_version c;
              cluster_state := cluster_state c; keyspace := Some ks |}, Ok [])
      | None => (c, Raise (ProgrammingError "keyspace does not exist"))
      end
  | USE _ => (c, Raise (ProgrammingError "bad keyspace name"))
  | SELECT_key =>
      match current_table c with
      | Ok (_, t) => (c, Ok ((fun r : string * pyval => [PyStr r.1]) <$> t))
      | Raise e => (c, Raise e)
      end
  | SELECT_val key limit1 =>
      match current_table c with
      | Ok (_, t) =>
          let rows :=
            (fun r : string * pyval => [r.2])
              <$> filter (fun r : string * pyval => r.1 = key) t in
          (c, Ok (if limit1 then take 1 rows else rows))
      | Raise e => (c, Raise e)
      end
  | INSERT key val =>
      match current_table c with
      | Ok (ks, t) => (with_table c ks (t ++ [(key, val)]), Ok [])
      | Raise e => (c, Raise e)
      end
  end.

(** [cursor.fetchall()] and [cursor.fetchone()] *)
Definition fetchall (rows : list row) : pyval := PyList (PyList <$> rows).
Definition fetchone (rows : list row) : pyval :=
  match rows with
  | [] => PyNone
  | r :: _ => PyList r
  end.

End CqlClient.

(** ** The running environment: what lines 15-23 bound [redis] and [cql] to

    [None] after a failed import; otherwise the module, which stands here for
    the store its clients reach. *)
Record environment : Type := {
  redis : option (gmap string StrictRedis.entry);
  cql : option (gmap string (list (string * pyval)))
}.

(** ** [class InMemoryStorage] *)
Module InMemoryStorage.

Record t : Type := {
  name : string;
  storage : gmap string pyval
}.

Definition __init__ (config : pyval) : t :=
  {| name := "dict"; storage := ∅ |}.

Definition keys (self : t) : pyval :=
  PyList (PyStr <$> elements (dom (storage self))).

Definition set_val (self : t) (key : string) (val : pyval) : t :=
  {| name := name self; storage := <[key := val]> (storage self) |}.

Definition get_val (self : t) (key : string) : result pyval :=
  match storage self !! key with
  | Some v => Ok v
  | None => Raise (KeyError key)
  end.

(** [d.setdefault(key, default)]: the dict afterwards and the object at [key]. *)
Definition dict_setdefault (d : gmap string pyval) (key : string) (default : pyval)
  : gmap string pyval * pyval :=
  match d !! key with
  | Some v => (d, v)
  | None => (<[key := default]> d, default)
  end.

(** [obj.append(val)]: the object afterwards. *)
Definition list_append (obj val : pyval) : result pyval :=
  match obj with
  | PyList l => Ok (PyList (l ++ [val]))
  | PyNone => Raise (AttributeError "'NoneType' object has no attribute 'append'")
  | PyInt _ => Raise (AttributeError "'int' object has no attribute 'append'")
  | PyStr _ => Raise (AttributeError "'str' object has no attribute 'append'")
  | PyDict _ => Raise (AttributeError "'dict' object has no attribute 'append'")
  end.

(** [self.storage.setdefault(key, []).append(val)]: the list appended to is
    the one the dict holds at [key]. *)
Definition append_val (self : t) (key : string) (val : pyval) : t * result pyval :=
  let '(d, obj) := dict_setdefault (storage self) key (PyList []) in
  match list_append obj val with
  | Ok obj' => ({| name := name self; storage := <[key := obj']> d |}, Ok PyNone)
  | Raise e => ({| name := name self; storage := d |}, Raise e)
  end.

(** [self.storage.get(key, [])] *)
Definition get_list (self : t) (key : string) : pyval :=
  match storage self !! key with
  | Some v => v
  | None => PyList []
  end.

End InMemoryStorage.

(** ** [class RedisStorage] *)
Module RedisStorage.

Record t : Type := {
  name : string;
  storage : StrictRedis.client
}.

Definition __init__ (env : environment) (config : pyval) : result t :=
  match redis env with
  | None => Raise (ImportError "redis-py is required to use Redis as storage.")
  | Some srv =>
      kwargs ← kwargs_of config;
      Ok {| name := "redis"; storage := StrictRedis.new srv kwargs |}
  end.

Definition keys `{Libraries} (self : t) (pattern : string) : result pyval :=
  StrictRedis.keys (storage self) pattern.

Definition set_val `{Libraries} (self : t) (key : string) (val : pyval) : t :=
  {| name := name self; storage := StrictRedis.set (storage self) key val |}.

Definition get_val (self : t) (key : string) : result pyval :=
  StrictRedis.get (storage self) key.

(** [self.storage.rpush(key, json.dumps(val))]: the argument is evaluated
    before the call, and reading the name [json] comes first. *)
Definition append_val `{Libraries} (self : t) (key : string) (val : pyval)
  : t * result pyval :=
  match (_ ← load_global "json"; json_dumps val) with
  | Raise e => (self, Raise e)
  | Ok s =>
      let '(c, r) := StrictRedis.rpush (storage self) key s in
      ({| name := name self; storage := c |}, _ ← r; Ok PyNone)
  end.

Definition get_list (self : t) (key : string) : result pyval :=
  StrictRedis.lrange (storage self) key 0 (-1).

End RedisStorage.

(** ** [class CassandraStorage] *)
Module CassandraStorage.

Record t : Type := {
  name : string;
  storage : CqlClient.connection
}.

Definition __init__ (env : environment) (config : pyval) : result t :=
  match cql env with
  | None => Raise (ImportError "cql is required to use Cassandra as storage.")
  | Some cl =>
      h ← getitem config "host";
      p ← getitem config "port";
      conn ← CqlClient.connect cl h p "3.0.0";
      ks ← getitem config "keyspace";
      let '(conn', r) := CqlClient.execute conn (CqlClient.USE ks) in
      _ ← r;
      Ok {| name := "cassandra"; storage := conn' |}
  end.

(** [pattern] is a parameter of the method and is not read in its body. *)
Definition keys (self : t) (pattern : string) : t * result pyval :=
  let '(c, r) := CqlClient.execute (storage self) CqlClient.SELECT_key in
  ({| name := name self; storage := c |}, CqlClient.fetchall <$> r).

Definition set_val (self : t) (key : string) (val : pyval) : t * result pyval :=
  let '(c, r) := CqlClient.execute (storage self) (CqlClient.INSERT key val) in
  ({| name := name self; storage := c |}, _ ← r; Ok PyNone).

Definition get_val (self : t) (key : string) : t * result pyval :=
  let '(c, r) := CqlClient.execute (storage self) (CqlClient.SELECT_val key true) in
  ({| name := name self; storage := c |}, CqlClient.fetchone <$> r).

(** [logging.debug(...)]: the record goes to the log, which is no part of the
    store. *)
Definition logging_debug : result unit := load_global "logging".

(** Lines 146-151, from the first [logging.debug] to the last. In
    [s = pickle.dumps(csr_matrix(array(val)))] the three names are read, then
    the calls run inside out. *)
Definition dumps `{Libraries} (val : pyval) : result string :=
  _ ← logging_debug;
  _ ← logging_debug;
  _ ← load_global "pickle";
  _ ← load_global "csr_matrix";
  _ ← load_global "array";
  a ← array val;
  m ← csr_matrix a;
  s ← pickle_dumps m;
  _ ← logging_debug;
  Ok s.

Definition append_val `{Libraries} (self : t) (key : string) (val : pyval)
  : t * result pyval :=
  match dumps val with
  | Raise e => (self, Raise e)
  | Ok s =>
      let '(c, r) :=
        CqlClient.execute (storage self) (CqlClient.INSERT key (PyStr s)) in
      ({| name := name self; storage := c |}, _ ← r; Ok PyNone)
  end.

(** [row[0]] *)
Definition first_column (row : list pyval) : result pyval :=
  match row with
  | v :: _ => Ok v
  | [] => Raise (IndexError "list index out of range")
  end.

(** [for row in cursor: out.append(row[0])] *)
Fixpoint for_rows (rows : list (list pyval)) (out : list pyval) : result (list pyval) :=
  match rows with
  | [] => Ok out
  | row :: rest => v ← first_column row; for_rows rest (out ++ [v])
  end.

Definition get_list (self : t) (key : string) : t * result pyval :=
  let '(c, r) := CqlClient.execute (storage self) (CqlClient.SELECT_val key false) in
  ({| name := name self; storage := c |},
   rows ← r; out ← for_rows rows []; Ok (PyList out)).

End CassandraStorage.

(** ** The factory [storage] *)

(** What the factory returns: an instance of one of the three classes. *)
Inductive handle : Type :=
| Dict (s : InMemoryStorage.t)
| Redis (s : RedisStorage.t)
| Cassandra (s : CassandraStorage.t).

Definition unsupported : exn :=
  ValueError "Only in-memory dictionary, Redis and Cassandra are supported.".

(** The configuration after the call (the factory assigns into the selected
    sub-map, which the caller's mapping still holds) and the outcome. The
    sub-map is followed under the selected key; a configuration that holds
    the same mapping object a second time shows the field there too. *)
Definition storage (env : environment) (storage_config : gmap string pyval) (index : pyval)
  : gmap string pyval * result handle :=
  match storage_config !! "dict" with
  | Some config => (storage_config, Ok (Dict (InMemoryStorage.__init__ config)))
  | None =>
      match storage_config !! "redis" with
      | Some config =>
          match setitem config "db" index with
          | Raise e => (storage_config, Raise e)
          | Ok config' =>
              (<["redis" := config']> storage_config,
               Redis <$> RedisStorage.__init__ env config')
          end
      | None =>
          match storage_config !! "cassandra" with
          | Some config =>
              match setitem config "db" index with
              | Raise e => (storage_config, Raise e)
              | Ok config' =>
                  (<["cassandra" := config']> storage_config,
                   Cassandra <$> CassandraStorage.__init__ env config')
              end
          | None => (storage_config, Raise unsupported)
          end
      end
  end.

(** ** The common contract, as a caller drives it

    The four operations addressed by a key, on whichever adapter the factory
    returned; [call] gives the handle after the call and the outcome, and
    [run] a caller that goes on after an exception. *)
Inductive op : Type :=
| SetVal (key : string) (val : pyval)
| GetVal (key : string)
| AppendVal (key : string) (val : pyval)
| GetList (key : string).

Definition call `{Libraries} (h : handle) (o : op) : handle * result pyval :=
  match h with
  | Dict s =>
      match o with
      | SetVal k v => (Dict (InMemoryStorage.set_val s k v), Ok PyNone)
      | GetVal k => (h, InMemoryStorage.get_val s k)
      | AppendVal k v =>
          let '(s', r) := InMemoryStorage.append_val s k v in (Dict s', r)
      | GetList k => (h, Ok (InMemoryStorage.get_list s k))
      end
  | Redis s =>
      match o with
      | SetVal k v => (Redis (RedisStorage.set_val s k v), Ok PyNone)
      | GetVal k => (h, RedisStorage.get_val s k)
      | AppendVal k v =>
          let '(s', r) := RedisStorage.append_val s k v in (Redis s', r)
      | GetList k => (h, RedisStorage.get_list s k)
      end
  | Cassandra s =>
      match o with
      | SetVal k v =>
          let '(s', r) := CassandraStorage.set_val s k v in (Cassandra s', r)
      | GetVal k =>
          let '(s', r) := CassandraStorage.get_val s k in (Cassandra s', r)
      | AppendVal k v =>
          let '(s', r) := CassandraStorage.append_val s k v in (Cassandra s', r)
      | GetList k =>
          let '(s', r) := CassandraStorage.get_list s k in (Cassandra s', r)
      end
  end.

Definition run `{Libraries} (h : handle) (ops : list op) : handle :=
  foldl (fun h o => (call h o).1) h ops.

(** [o] sets or appends at [key]. *)
Definition writes (key : string) (o : op) : bool :=
  match o with
  | SetVal k _ | AppendVal k _ => bool_decide (k = key)
  | GetVal _ | GetList _ => false
  end.

(** Nothing is stored at [key]: no entry of the dict, no key of the Redis
    database, no row of the selected keyspace's table. *)
Definition absent (key : string) (h : handle) : Prop :=
  match h with
  | Dict s => InMemoryStorage.storage s !! key = None
  | Redis s => StrictRedis.db (RedisStorage.storage s) !! key = None
  | Cassandra s =>
      exists ks t,
        CqlClient.current_table (CassandraStorage.storage s) = Ok (ks, t)
        /\ key ∉ t.*1
  end.

(** An instance of the encoders to evaluate the definitions with: arrays and
    matrices are the values themselves and every encoding is a fixed text. *)
Definition text_libraries : Libraries :=
  {| ndarray := pyval; csr := pyval;
     array := fun v => Ok v;
     csr_matrix := fun a => Ok a;
     pickle_dumps := fun _ => Ok "<pickle>";
     json_dumps := fun _ => Ok "<json>";
     redis_encode := fun v => match v with PyStr s => s | _ => "<bytes>" end;
     glob_match := fun _ _ => true |}.

(** Concrete environments and stores for the examples below. *)
Definition no_client_libraries : environment :=
  {| redis := None; cql := None |}.

Definition both_client_libraries : environment :=
  {| redis := Some ∅; cql := Some {[ "lsh_ks" := [] ]} |}.

Definition cassandra_params : gmap string pyval :=
  {[ "host" := PyStr "localhost"; "port" := PyInt 9160; "keyspace" := PyStr "lsh_ks" ]}.

Definition redis_params : gmap string pyval :=
  {[ "host" := PyStr "localhost"; "port" := PyInt 6379 ]}.

(** An open handle on the keyspace of [both_client_libraries], nothing stored. *)
Definition open_cassandra : CassandraStorage.t :=
  {| CassandraStorage.name := "cassandra";
     CassandraStorage.storage :=
       {| CqlClient.host := PyStr "localhost";
          CqlClient.port := PyInt 9160;
          CqlClient.cql_version := "3.0.0";
          CqlClient.cluster_state := {[ "lsh_ks" := [] ]};
          CqlClient.keyspace := Some "lsh_ks" |} |}.

Definition open_redis : RedisStorage.t :=
  {| RedisStorage.name := "redis";
     RedisStorage.storage := StrictRedis.new ∅ (<["db" := PyInt 3]> redis_params) |}.

(** A Redis handle on a database where another client pushed two entries
    under "h1". *)
Definition redis_with_bucket : RedisStorage.t :=
  {| RedisStorage.name := "redis";
     RedisStorage.storage :=
       StrictRedis.new {[ "h1" := StrictRedis.RList ["[1, 2]"; "[3, 4]"] ]}
         (<["db" := PyInt 3]> redis_params) |}.

(** ** What a history of calls leaves at a key *)

(** [o] is a [set_val] at [key]. *)
Definition sets (key : string) (o : op) : bool :=
  match o with
  | SetVal k _ => bool_decide (k = key)
  | GetVal _ | AppendVal _ _ | GetList _ => false
  end.

(** The values the [append_val] calls of [ops] at [key] carry, in call order. *)
Fixpoint appended (key : string) (ops : list op) : list pyval :=
  match ops with
  | [] => []
  | AppendVal k v :: rest =>
      if bool_decide (k = key) then v :: appended key rest else appended key rest
  | _ :: rest => appended key rest
  end.

(** Values are held here by value. The adapters hold Python objects by
    reference, and the two readings agree as long as no list or dict object
    is reachable from two places: [None], numbers and strings cannot be
    changed, and the lists [append_val] creates belong to one key each. *)
Definition immutable (v : pyval) : bool :=
  match v with
  | PyNone | PyInt _ | PyStr _ => true
  | PyList _ | PyDict _ => false
  end.

(** The value [o] hands over, if any, is immutable. *)
Definition passes_immutable (o : op) : bool :=
  match o with
  | SetVal _ v | AppendVal _ v => immutable v
  | GetVal _ | GetList _ => true
  end.


(** Something is stored at [key]. *)
Definition present (key : string) (h : handle) : Prop :=
  match h with
  | Dict s => is_Some (InMemoryStorage.storage s !! key)
  | Redis s => is_Some (StrictRedis.db (RedisStorage.storage s) !! key)
  | Cassandra s =>
      exists ks t,
        CqlClient.current_table (CassandraStorage.storage s) = Ok (ks, t)
        /\ key ∈ t.*1
  end.

(** [self.name] of the instance the factory returned. *)
Definition name_of (h : handle) : string :=
  match h with
  | Dict s => InMemoryStorage.name s
  | Redis s => RedisStorage.name s
  | Cassandra s => CassandraStorage.name s
  end.

(** * Properties of the storage layer *)

(** ** Keys nothing was stored at *)
Section Contract.
Context `{Libraries}.

(** The module binds [ujson], not [json]. *)
Lemma load_global_json : load_global "json" = Raise (NameError "json").
Proof. reflexivity. Qed.

Lemma current_table_with_table c ks t t' :
  CqlClient.current_table c = Ok (ks, t) ->
  CqlClient.current_table (CqlClient.with_table c ks t') = Ok (ks, t').
Proof.
  unfold CqlClient.current_table, CqlClient.with_table. simpl.
  destruct (CqlClient.keyspace c) as [ks'|]; [|done].
  destruct (CqlClient.cluster_state c !! ks') eqn:E; [|done].
  intros Heq. simplify_eq. by rewrite lookup_insert_eq.
Qed.

Lemma insert_absent (s : CassandraStorage.t) key k v ks t :
  CqlClient.current_table (CassandraStorage.storage s) = Ok (ks, t) ->
  key ∉ t.*1 -> k <> key ->
  absent key
    (Cassandra {| CassandraStorage.name := CassandraStorage.name s;
                  CassandraStorage.storage :=
                    (CqlClient.execute (CassandraStorage.storage s) (CqlClient.INSERT k v)).1 |}).
Proof.
  intros Ht Hk Hne. simpl. rewrite Ht. simpl.
  exists ks, (t ++ [(k, v)]). split.
  - by eapply current_table_with_table.
  - rewrite fmap_app. apply not_elem_of_app. split; [done|].
    simpl. rewrite list_elem_of_singleton. congruence.
Qed.

(** A call that does not write at [key] leaves it absent, on every adapter
    (on Redis also [append_val], which stops before the push). *)
Lemma call_absent (h : handle) (o : op) (key : string) :
  absent key h -> writes key o = false -> absent key (call h o).1.
Proof.
  intros Habs Hw. destruct h as [s|s|s].
  - destruct o as [k v|k|k v|k]; simpl in *; try exact Habs.
    + apply bool_decide_eq_false in Hw. by rewrite lookup_insert_ne.
    + apply bool_decide_eq_false in Hw.
      unfold InMemoryStorage.append_val, InMemoryStorage.dict_setdefault.
      destruct (InMemoryStorage.storage s !! k) as [[| | |l|]|] eqn:E; simpl;
        try exact Habs; by rewrite ?lookup_insert_ne.
  - destruct o as [k v|k|k v|k]; simpl in *; try exact Habs.
    apply bool_decide_eq_false in Hw. by rewrite lookup_insert_ne.
  - destruct Habs as (ks & t & Ht & Hk).
    destruct o as [k v|k|k v|k]; cbn [call writes] in *.
    + apply bool_decide_eq_false in Hw.
      unfold CassandraStorage.set_val.
      pose proof (insert_absent s key k v ks t Ht Hk Hw) as HI.
      destruct (CqlClient.execute _ _); exact HI.
    + unfold CassandraStorage.get_val, CqlClient.execute. rewrite Ht. simpl. eauto.
    + apply bool_decide_eq_false in Hw.
      unfold CassandraStorage.append_val.
      destruct (CassandraStorage.dumps v) as [s0|e]; [|simpl; eauto].
      pose proof (insert_absent s key k (PyStr s0) ks t Ht Hk Hw) as HI.
      destruct (CqlClient.execute _ _); exact HI.
    + unfold CassandraStorage.get_list, CqlClient.execute. rewrite Ht. simpl. eauto.
Qed.

Lemma run_absent (ops : list op) (h : handle) (key : string) :
  absent key h -> Forall (fun o => writes key o = false) ops -> absent key (run h ops).
Proof.
  revert h. induction ops as [|o ops IH]; intros h Habs Hall; [exact Habs|].
  inversion Hall; subst. apply IH; [by apply call_absent | done].
Qed.

(** LRANGE key 0 -1 is the whole list. *)
Lemma slice_full (l : list string) : StrictRedis.slice l 0 (-1) = l.
Proof.
  unfold StrictRedis.slice. simpl.
  repeat case_decide; try lia.
  - destruct l; [done | simpl in *; lia].
  - replace (Z.to_nat _) with (length l) by lia. by rewrite drop_0, firstn_all.
Qed.

Lemma filter_absent (t : list (string * pyval)) (key : string) :
  key ∉ t.*1 -> filter (fun r : string * pyval => r.1 = key) t = [].
Proof.
  induction t as [|[k v] t IH]; [done|]. intros Hk.
  apply not_elem_of_cons in Hk as [Hne Hk].
  rewrite filter_cons. simpl in *. case_decide; [congruence | by apply IH].
Qed.

Lemma get_list_absent (h : handle) (key : string) :
  absent key h -> (call h (GetList key)).2 = Ok (PyList []).
Proof.
  destruct h as [s|s|s]; simpl.
  - unfold InMemoryStorage.get_list. by intros ->.
  - unfold RedisStorage.get_list, StrictRedis.lrange. by intros ->.
  - intros (ks & t & Ht & Hk).
    unfold CassandraStorage.get_list, CqlClient.execute. rewrite Ht. simpl.
    by rewrite filter_absent.
Qed.

(** C5. A key that was never written or appended to reads as the empty
    list, without an error, on every adapter: whatever calls were made on
    the handle before, as long as none of them sets or appends at the key
    and nothing was stored at it to begin with. *)
Theorem get_list_never_written (h : handle) (ops : list op) (key : string) :
  absent key h ->
  Forall (fun o => writes key o = false) ops ->
  (call (run h ops) (GetList key)).2 = Ok (PyList []).
Proof.
  intros Habs Hops. apply get_list_absent. by apply run_absent.
Qed.

(** C10, as the code has it. On the in-memory adapter [get_val] of a key
    that has no entry (neither [set_val] nor [append_val] was called on it)
    raises [KeyError]; on the Redis adapter [get_val] of an absent key
    returns [None]. *)
Theorem get_val_never_set (h : handle) (ops : list op) (key : string) :
  absent key h ->
  Forall (fun o => writes key o = false) ops ->
  match run h ops with
  | Dict s => InMemoryStorage.get_val s key = Raise (KeyError key)
  | Redis s => RedisStorage.get_val s key = Ok PyNone
  | Cassandra _ => True
  end.
Proof.
  intros Habs Hops. pose proof (run_absent ops h key Habs Hops) as Hr.
  destruct (run h ops) as [s|s|s]; simpl in Hr; [| |done].
  - unfold InMemoryStorage.get_val. by rewrite Hr.
  - unfold RedisStorage.get_val, StrictRedis.get. by rewrite Hr.
Qed.

(** C6. [set_val(k, v)] then [get_val(k)] returns [v] on the in-memory
    adapter, and on the Redis adapter the bytes [v] was encoded to. *)
Theorem set_val_get_val (key : string) (val : pyval) :
  (forall s : InMemoryStorage.t,
      InMemoryStorage.get_val (InMemoryStorage.set_val s key val) key = Ok val)
  /\ (forall s : RedisStorage.t,
      RedisStorage.get_val (RedisStorage.set_val s key val) key
      = Ok (PyStr (redis_encode val))).
Proof.
  split; intros s.
  - unfold InMemoryStorage.get_val, InMemoryStorage.set_val. simpl.
    by rewrite lookup_insert_eq.
  - unfold RedisStorage.get_val, RedisStorage.set_val, StrictRedis.get, StrictRedis.set.
    simpl. by rewrite lookup_insert_eq.
Qed.

End Contract.

Lemma get_list_never_written_witness :
  (call (H := text_libraries)
     (run (H := text_libraries) (Dict (InMemoryStorage.__init__ PyNone))
        [SetVal "a" (PyInt 1); AppendVal "b" (PyInt 2); GetVal "a"])
     (GetList "h1")).2 = Ok (PyList [])
  /\ (call (H := text_libraries)
        (run (H := text_libraries) (Cassandra open_cassandra)
           [AppendVal "b" (PyList [PyInt 1; PyInt 2]); GetList "b"])
        (GetList "h1")).2 = Ok (PyList []).
Proof.
  split.
  - apply (get_list_never_written (H := text_libraries)).
    + reflexivity.
    + repeat constructor.
  - apply (get_list_never_written (H := text_libraries)).
    + exists "lsh_ks", []. split; [reflexivity | apply not_elem_of_nil].
    + repeat constructor.
Defined.

Lemma get_val_never_set_witness :
  InMemoryStorage.get_val
    (InMemoryStorage.set_val (InMemoryStorage.__init__ PyNone) "a" (PyInt 1)) "h1"
  = Raise (KeyError "h1").
Proof.
  apply (get_val_never_set (H := text_libraries)
           (Dict (InMemoryStorage.__init__ PyNone)) [SetVal "a" (PyInt 1)] "h1").
  - reflexivity.
  - repeat constructor.
Defined.

(** C10, as it is stated, fails: "h1" was never set, yet after
    [append_val("h1", 1)] on a new in-memory adapter [get_val("h1")] returns
    the list [[1]] and raises nothing. *)
Lemma get_val_after_append_returns_list :
  InMemoryStorage.append_val (InMemoryStorage.__init__ PyNone) "h1" (PyInt 1)
  = ({| InMemoryStorage.name := "dict";
        InMemoryStorage.storage := {[ "h1" := PyList [PyInt 1] ]} |},
     Ok PyNone)
  /\ InMemoryStorage.get_val
       (InMemoryStorage.append_val (InMemoryStorage.__init__ PyNone) "h1" (PyInt 1)).1 "h1"
     = Ok (PyList [PyInt 1]).
Proof. split; reflexivity. Qed.

(** ** The in-memory adapter *)

(** C4. On the in-memory backend, after [append_val("h1", "x")] and
    [append_val("h1", "y")] on the handle the factory returned,
    [get_list("h1")] is [["x", "y"]] in that order and [keys()] lists "h1". *)
Theorem in_memory_append_scenario
  (env : environment) (cfg : gmap string pyval) (config index : pyval) :
  cfg !! "dict" = Some config ->
  exists s0 s1 s2 ks,
    storage env cfg index = (cfg, Ok (Dict s0))
    /\ InMemoryStorage.append_val s0 "h1" (PyStr "x") = (s1, Ok PyNone)
    /\ InMemoryStorage.append_val s1 "h1" (PyStr "y") = (s2, Ok PyNone)
    /\ InMemoryStorage.get_list s2 "h1" = PyList [PyStr "x"; PyStr "y"]
    /\ InMemoryStorage.keys s2 = PyList ks
    /\ PyStr "h1" ∈ ks.
Proof.
  intros Hdict. unfold storage. rewrite Hdict.
  eexists _, _, _, _. split; [reflexivity|].
  split; [reflexivity|]. split; [reflexivity|]. split; [reflexivity|].
  split; [reflexivity|].
  apply list_elem_of_fmap_2, elem_of_elements, elem_of_dom.
  eexists. reflexivity.
Qed.

Lemma in_memory_append_scenario_witness :
  exists s0 s1 s2 ks,
    storage no_client_libraries {[ "dict" := PyNone ]} (PyInt 0)
    = ({[ "dict" := PyNone ]}, Ok (Dict s0))
    /\ InMemoryStorage.append_val s0 "h1" (PyStr "x") = (s1, Ok PyNone)
    /\ InMemoryStorage.append_val s1 "h1" (PyStr "y") = (s2, Ok PyNone)
    /\ InMemoryStorage.get_list s2 "h1" = PyList [PyStr "x"; PyStr "y"]
    /\ InMemoryStorage.keys s2 = PyList ks
    /\ PyStr "h1" ∈ ks.
Proof.
  apply (in_memory_append_scenario no_client_libraries {[ "dict" := PyNone ]} PyNone (PyInt 0)).
  reflexivity.
Defined.

Lemma set_val_get_val_witness :
  InMemoryStorage.get_val
    (InMemoryStorage.set_val (InMemoryStorage.__init__ PyNone) "h1" (PyList [PyInt 1; PyInt 2]))
    "h1"
  = Ok (PyList [PyInt 1; PyInt 2])
  /\ RedisStorage.get_val
       (RedisStorage.set_val (H := text_libraries) open_redis "h1" (PyStr "v")) "h1"
     = Ok (PyStr "v").
Proof.
  destruct (set_val_get_val (H := text_libraries) "h1" (PyList [PyInt 1; PyInt 2])) as [Hmem _].
  destruct (set_val_get_val (H := text_libraries) "h1" (PyStr "v")) as [_ Hredis].
  split; [apply Hmem | apply Hredis].
Defined.

(** ** The factory *)

(** C1, as the code has it. The factory fails with its [ValueError] exactly
    when none of the keys 'dict', 'redis', 'cassandra' is in the
    configuration. With more than one of them it does not fail on that
    account: 'dict' is taken before 'redis' and 'redis' before 'cassandra',
    whatever other keys are present. *)
Theorem storage_selects_by_priority
  (env : environment) (cfg : gmap string pyval) (index : pyval) :
  ((storage env cfg index).2 = Raise unsupported
   <-> cfg !! "dict" = None /\ cfg !! "redis" = None /\ cfg !! "cassandra" = None)
  /\ (forall config, cfg !! "dict" = Some config ->
        storage env cfg index = (cfg, Ok (Dict (InMemoryStorage.__init__ config))))
  /\ (forall config, cfg !! "dict" = None -> cfg !! "redis" = Some config ->
        (storage env cfg index).2
        = (config' ← setitem config "db" index; Redis <$> RedisStorage.__init__ env config')).
Proof.
  split; [split|split].
  - unfold storage.
    destruct (cfg !! "dict") as [c|]; [discriminate|].
    destruct (cfg !! "redis") as [c|].
    { destruct c; simpl; try discriminate.
      unfold RedisStorage.__init__. destruct (redis env); discriminate. }
    destruct (cfg !! "cassandra") as [c|]; [|done].
    destruct c as [| | | |d]; simpl; try discriminate.
    unfold CassandraStorage.__init__. destruct (cql env); [|discriminate].
    simpl. destruct (<["db":=index]> d !! "host"); [|discriminate].
    simpl. destruct (<["db":=index]> d !! "port"); [|discriminate].
    simpl. destruct (<["db":=index]> d !! "keyspace") as [ks|]; [|discriminate].
    simpl. destruct ks; simpl; try discriminate.
    destruct (_ !! _); discriminate.
  - intros (Hd & Hr & Hc). unfold storage. by rewrite Hd, Hr, Hc.
  - intros config Hd. unfold storage. by rewrite Hd.
  - intros config Hd Hr. unfold storage. rewrite Hd, Hr.
    by destruct (setitem config "db" index).
Qed.

Lemma storage_selects_by_priority_witness :
  (storage both_client_libraries ∅ (PyInt 0)).2 = Raise unsupported
  /\ storage both_client_libraries
       {[ "dict" := PyNone; "cassandra" := PyDict cassandra_params ]} (PyInt 0)
     = ({[ "dict" := PyNone; "cassandra" := PyDict cassandra_params ]},
        Ok (Dict (InMemoryStorage.__init__ PyNone))).
Proof.
  split.
  - apply (storage_selects_by_priority both_client_libraries ∅ (PyInt 0)).
    repeat split; reflexivity.
  - apply (storage_selects_by_priority both_client_libraries
             {[ "dict" := PyNone; "cassandra" := PyDict cassandra_params ]} (PyInt 0)).
    reflexivity.
Defined.

(** C1, as it is stated, fails: a configuration with the two backend keys
    'dict' and 'redis' is accepted and the in-memory adapter is returned. *)
Lemma storage_two_backends_no_error :
  storage both_client_libraries
    {[ "dict" := PyNone; "redis" := PyDict redis_params ]} (PyInt 0)
  = ({[ "dict" := PyNone; "redis" := PyDict redis_params ]},
     Ok (Dict {| InMemoryStorage.name := "dict"; InMemoryStorage.storage := ∅ |})).
Proof. reflexivity. Qed.

(** C9. When the [redis] (or [cql]) client library could not be imported,
    constructing the Redis (or Cassandra) adapter raises [ImportError] in the
    constructor itself, directly or through the factory: no handle exists on
    which an operation could fail later. *)
Theorem missing_client_library_fails_at_construction
  (env : environment) (config : pyval) :
  (redis env = None ->
     RedisStorage.__init__ env config
     = Raise (ImportError "redis-py is required to use Redis as storage."))
  /\ (cql env = None ->
        CassandraStorage.__init__ env config
        = Raise (ImportError "cql is required to use Cassandra as storage."))
  /\ (forall cfg index sub,
        redis env = None -> cfg !! "dict" = None -> cfg !! "redis" = Some (PyDict sub) ->
        (storage env cfg index).2
        = Raise (ImportError "redis-py is required to use Redis as storage."))
  /\ (forall cfg index sub,
        cql env = None -> cfg !! "dict" = None -> cfg !! "redis" = None ->
        cfg !! "cassandra" = Some (PyDict sub) ->
        (storage env cfg index).2
        = Raise (ImportError "cql is required to use Cassandra as storage.")).
Proof.
  repeat split.
  - intros Hr. unfold RedisStorage.__init__. by rewrite Hr.
  - intros Hc. unfold CassandraStorage.__init__. by rewrite Hc.
  - intros cfg index sub Hr Hd Hs. unfold storage. rewrite Hd, Hs. simpl.
    unfold RedisStorage.__init__. by rewrite Hr.
  - intros cfg index sub Hc Hd Hr Hs. unfold storage. rewrite Hd, Hr, Hs. simpl.
    unfold CassandraStorage.__init__. by rewrite Hc.
Qed.

Lemma missing_client_library_fails_at_construction_witness :
  RedisStorage.__init__ no_client_libraries (PyDict redis_params)
  = Raise (ImportError "redis-py is required to use Redis as storage.")
  /\ (storage no_client_libraries {[ "cassandra" := PyDict cassandra_params ]} (PyInt 3)).2
     = Raise (ImportError "cql is required to use Cassandra as storage.").
Proof.
  destruct (missing_client_library_fails_at_construction
              no_client_libraries (PyDict redis_params)) as (Hredis & _ & _ & Hfactory).
  split.
  - apply Hredis. reflexivity.
  - apply (Hfactory _ (PyInt 3) cassandra_params); reflexivity.
Defined.

(** ** The Redis adapter *)
Section Redis.
Context `{Libraries}.

(** C2. What [append_val] of the Redis adapter does on every store, key and
    value: it raises [NameError] for the name [json], which the module never
    binds (it imports [ujson]), before anything is encoded or pushed; the
    store is left as it was. *)
Theorem redis_append_val_raises_name_error
  (self : RedisStorage.t) (key : string) (val : pyval) :
  RedisStorage.append_val self key val = (self, Raise (NameError "json")).
Proof.
  unfold RedisStorage.append_val. by rewrite load_global_json.
Qed.

(** X7. [get_list] of the Redis adapter, for a key holding a list, returns
    every entry of the list, in order and as the store holds it (the range
    0 to -1 is the whole list; nothing is decoded). *)
Lemma redis_get_list_entries (self : RedisStorage.t) (key : string) (l : list string) :
  StrictRedis.db (RedisStorage.storage self) !! key = Some (StrictRedis.RList l) ->
  RedisStorage.get_list self key = Ok (PyList (PyStr <$> l)).
Proof.
  intros Hl. unfold RedisStorage.get_list, StrictRedis.lrange.
  by rewrite Hl, slice_full.
Qed.

End Redis.

(** ** The Cassandra adapter *)

(** C8. [keys(pattern)] of the Cassandra adapter does not depend on
    [pattern]: for any two patterns it leaves the same handle and returns the
    same result, which on an open handle is the key column of every row of
    the table. *)
Theorem cassandra_keys_ignores_pattern (self : CassandraStorage.t) (p1 p2 : string) :
  CassandraStorage.keys self p1 = CassandraStorage.keys self p2
  /\ (forall ks t,
        CqlClient.current_table (CassandraStorage.storage self) = Ok (ks, t) ->
        CassandraStorage.keys self p1
        = (self, Ok (PyList ((fun r : string * pyval => PyList [PyStr r.1]) <$> t)))).
Proof.
  split; [reflexivity|].
  intros ks t Ht. unfold CassandraStorage.keys, CqlClient.execute. rewrite Ht.
  destruct self as [n c]. simpl. unfold CqlClient.fetchall.
  by rewrite <- list_fmap_compose.
Qed.

Lemma cassandra_keys_ignores_pattern_witness :
  CassandraStorage.keys
    (CassandraStorage.set_val open_cassandra "h1" (PyStr "v")).1 "*"
  = CassandraStorage.keys
      (CassandraStorage.set_val open_cassandra "h1" (PyStr "v")).1 "zz*"
  /\ (CassandraStorage.keys
        (CassandraStorage.set_val open_cassandra "h1" (PyStr "v")).1 "zz*").2
     = Ok (PyList [PyList [PyStr "h1"]]).
Proof.
  destruct (cassandra_keys_ignores_pattern
              (CassandraStorage.set_val open_cassandra "h1" (PyStr "v")).1 "zz*" "*")
    as [Hsame Hall].
  split; [symmetry; exact Hsame|].
  rewrite (Hall "lsh_ks" [("h1", PyStr "v")]); reflexivity.
Defined.

Lemma for_rows_val_column (l : list (string * pyval)) (out : list pyval) :
  CassandraStorage.for_rows ((fun r : string * pyval => [r.2]) <$> l) out
  = Ok (out ++ l.*2).
Proof.
  revert out. induction l as [|r l IH]; intros out; simpl.
  - by rewrite app_nil_r.
  - rewrite IH. by rewrite <- app_assoc.
Qed.

(** What [get_list] returns on an open handle: the [val] column of the rows
    stored under the key, as stored and in the table's order. *)
Lemma cassandra_get_list_rows (self : CassandraStorage.t) (key ks : string)
  (t : list (string * pyval)) :
  CqlClient.current_table (CassandraStorage.storage self) = Ok (ks, t) ->
  (CassandraStorage.get_list self key).2
  = Ok (PyList (filter (fun r : string * pyval => r.1 = key) t).*2).
Proof.
  intros Ht. unfold CassandraStorage.get_list, CqlClient.execute. rewrite Ht. simpl.
  by rewrite for_rows_val_column.
Qed.

(** The entries [get_list] returns are the [val] column of the rows stored
    under the key, each as it is stored. *)
Lemma stored_under_key (t : list (string * pyval)) (key : string) (e : pyval) :
  e ∈ (filter (fun r : string * pyval => r.1 = key) t).*2 <-> (key, e) ∈ t.
Proof.
  rewrite list_elem_of_fmap. split.
  - intros ([k v] & -> & Hin). apply list_elem_of_filter in Hin as [Hk Hin].
    simpl in *. by subst k.
  - intros Hin. exists (key, e). split; [done|]. by apply list_elem_of_filter.
Qed.

Section Cassandra.
Context `{Libraries}.

(** C3, as the code has it. On an open Cassandra handle, [append_val(key,
    val)] stores the pickled text of [csr_matrix(array(val))] in a row under
    [key], and [get_list(key)] then returns the [val] column of the rows
    stored under [key], each entry as it is stored: the pickled text is among
    them, still encoded. [get_list] applies no decoding, like the Redis
    adapter. Nothing is said of the order of the entries or of how many there
    are. *)
Theorem cassandra_get_list_returns_encoded
  (self : CassandraStorage.t) (key : string) (val : pyval)
  (s ks : string) (t : list (string * pyval)) :
  CassandraStorage.dumps val = Ok s ->
  CqlClient.current_table (CassandraStorage.storage self) = Ok (ks, t) ->
  exists self' t' entries,
    CassandraStorage.append_val self key val = (self', Ok PyNone)
    /\ CqlClient.current_table (CassandraStorage.storage self') = Ok (ks, t')
    /\ (CassandraStorage.get_list self' key).2 = Ok (PyList entries)
    /\ (forall e, e ∈ entries <-> (key, e) ∈ t')
    /\ PyStr s ∈ entries.
Proof.
  intros Hs Ht.
  assert (CqlClient.current_table
            (CqlClient.with_table (CassandraStorage.storage self) ks (t ++ [(key, PyStr s)]))
          = Ok (ks, t ++ [(key, PyStr s)])) as Ht'
    by (by eapply current_table_with_table).
  exists {| CassandraStorage.name := CassandraStorage.name self;
            CassandraStorage.storage :=
              CqlClient.with_table (CassandraStorage.storage self) ks (t ++ [(key, PyStr s)]) |},
    (t ++ [(key, PyStr s)]),
    (filter (fun r : string * pyval => r.1 = key) (t ++ [(key, PyStr s)])).*2.
  split; [|split; [|split; [|split]]].
  - unfold CassandraStorage.append_val. rewrite Hs.
    unfold CqlClient.execute. by rewrite Ht.
  - exact Ht'.
  - by apply cassandra_get_list_rows with ks.
  - intros e. apply stored_under_key.
  - apply stored_under_key, elem_of_app. right. apply list_elem_of_here.
Qed.

End Cassandra.

Lemma cassandra_get_list_returns_encoded_witness :
  exists self' t' entries,
    CassandraStorage.append_val (H := text_libraries) open_cassandra "h1"
      (PyList [PyInt 1; PyInt 2]) = (self', Ok PyNone)
    /\ CqlClient.current_table (CassandraStorage.storage self') = Ok ("lsh_ks", t')
    /\ (CassandraStorage.get_list self' "h1").2 = Ok (PyList entries)
    /\ (forall e, e ∈ entries <-> ("h1", e) ∈ t')
    /\ PyStr "<pickle>" ∈ entries.
Proof.
  apply (cassandra_get_list_returns_encoded (H := text_libraries)
           open_cassandra "h1" (PyList [PyInt 1; PyInt 2]) "<pickle>" "lsh_ks" []);
    reflexivity.
Defined.

(** C3, as it is stated, fails: whatever the encoders are, appending the
    vector [[1, 2]] under "h1" on an open, empty Cassandra handle and then
    reading the list does not give back the list holding that vector. *)
Lemma cassandra_get_list_not_decoded :
  ~ exists L : Libraries,
      (CassandraStorage.get_list
         (CassandraStorage.append_val (H := L) open_cassandra "h1"
            (PyList [PyInt 1; PyInt 2])).1 "h1").2
      = Ok (PyList [PyList [PyInt 1; PyInt 2]]).
Proof.
  intros [L Hget]. unfold CassandraStorage.append_val in Hget.
  destruct (CassandraStorage.dumps (PyList [PyInt 1; PyInt 2])) as [s|e];
    vm_compute in Hget; discriminate.
Qed.

(** ** Namespace injection *)

(** The Cassandra constructor reads 'host', 'port' and 'keyspace' and no
    other field of its configuration. *)
Lemma cassandra_init_ignores_db (env : environment) (sub : gmap string pyval)
  (index index' : pyval) :
  CassandraStorage.__init__ env (PyDict (<["db" := index]> sub))
  = CassandraStorage.__init__ env (PyDict (<["db" := index']> sub)).
Proof.
  unfold CassandraStorage.__init__, getitem.
  destruct (cql env) as [cl|]; [|done].
  by rewrite !(lookup_insert_ne _ "db") by done.
Qed.

(** A handle the Cassandra constructor returned has its keyspace selected. *)
Lemma cassandra_init_open (env : environment) (config : pyval) (s : CassandraStorage.t) :
  CassandraStorage.__init__ env config = Ok s ->
  exists ks t, CqlClient.current_table (CassandraStorage.storage s) = Ok (ks, t).
Proof.
  unfold CassandraStorage.__init__.
  destruct (cql env) as [cl|]; [|discriminate].
  destruct (getitem config "host") as [h|]; [|discriminate].
  destruct (getitem config "port") as [p|]; [|discriminate].
  simpl. destruct (getitem config "keyspace") as [ks|]; [|discriminate].
  simpl. destruct ks as [| |ks| |]; try discriminate.
  destruct (cl !! ks) as [t|] eqn:Hks; [|discriminate].
  simpl. intros Hs. simplify_eq. exists ks, t.
  unfold CqlClient.current_table. simpl. by rewrite Hks.
Qed.

(** C7, as the code has it. For a configuration that selects Redis or
    Cassandra the factory stores [index] under 'db' in that backend's
    sub-map, which the caller's configuration holds afterwards, and
    constructs the adapter from that sub-map. The Redis adapter hands the
    whole sub-map to the client constructor as keyword arguments, so the
    client's parameters have [db = index]. For the in-memory backend the
    configuration is left as it was. *)
Theorem storage_injects_db
  (env : environment) (cfg : gmap string pyval) (index : pyval) :
  (forall config, cfg !! "dict" = Some config ->
     storage env cfg index = (cfg, Ok (Dict (InMemoryStorage.__init__ config))))
  /\ (forall sub, cfg !! "dict" = None -> cfg !! "redis" = Some (PyDict sub) ->
        storage env cfg index
        = (<["redis" := PyDict (<["db" := index]> sub)]> cfg,
           Redis <$> RedisStorage.__init__ env (PyDict (<["db" := index]> sub)))
        /\ forall s, RedisStorage.__init__ env (PyDict (<["db" := index]> sub)) = Ok s ->
             StrictRedis.connection_kwargs (RedisStorage.storage s) = <["db" := index]> sub
             /\ StrictRedis.connection_kwargs (RedisStorage.storage s) !! "db" = Some index)
  /\ (forall sub, cfg !! "dict" = None -> cfg !! "redis" = None ->
        cfg !! "cassandra" = Some (PyDict sub) ->
        storage env cfg index
        = (<["cassandra" := PyDict (<["db" := index]> sub)]> cfg,
           Cassandra <$> CassandraStorage.__init__ env (PyDict (<["db" := index]> sub)))).
Proof.
  split; [|split].
  - intros config Hd. unfold storage. by rewrite Hd.
  - intros sub Hd Hr. split.
    + unfold storage. by rewrite Hd, Hr.
    + intros s. unfold RedisStorage.__init__.
      destruct (redis env) as [srv|]; [|discriminate].
      simpl. intros Hs. simplify_eq. simpl. by rewrite lookup_insert_eq.
  - intros sub Hd Hr Hc. unfold storage. by rewrite Hd, Hr, Hc.
Qed.

Lemma storage_injects_db_witness :
  (exists s,
     storage both_client_libraries {[ "redis" := PyDict redis_params ]} (PyInt 3)
     = ({[ "redis" := PyDict (<["db" := PyInt 3]> redis_params) ]}, Ok (Redis s))
     /\ StrictRedis.connection_kwargs (RedisStorage.storage s) !! "db" = Some (PyInt 3))
  /\ storage both_client_libraries {[ "cassandra" := PyDict cassandra_params ]} (PyInt 3)
     = ({[ "cassandra" := PyDict (<["db" := PyInt 3]> cassandra_params) ]},
        Ok (Cassandra open_cassandra)).
Proof.
  destruct (storage_injects_db both_client_libraries
              {[ "redis" := PyDict redis_params ]} (PyInt 3)) as (_ & Hredis & _).
  destruct (Hredis redis_params) as [Hst Hkw]; [reflexivity | reflexivity |].
  destruct (storage_injects_db both_client_libraries
              {[ "cassandra" := PyDict cassandra_params ]} (PyInt 3)) as (_ & _ & Hcass).
  pose proof (Hcass cassandra_params eq_refl eq_refl eq_refl) as Hst'.
  split.
  - exists open_redis. split; [reflexivity|]. apply Hkw. reflexivity.
  - reflexivity.
Defined.

(** C7, as it is stated, fails for Cassandra: with index 3 and with index 4
    the factory builds the same handle, whose connection was made with the
    host, the port and the version only. *)
Lemma cassandra_client_without_index :
  (storage both_client_libraries {[ "cassandra" := PyDict cassandra_params ]} (PyInt 3)).2
  = Ok (Cassandra
          {| CassandraStorage.name := "cassandra";
             CassandraStorage.storage :=
               {| CqlClient.host := PyStr "localhost";
                  CqlClient.port := PyInt 9160;
                  CqlClient.cql_version := "3.0.0";
                  CqlClient.cluster_state := {[ "lsh_ks" := [] ]};
                  CqlClient.keyspace := Some "lsh_ks" |} |})
  /\ (storage both_client_libraries {[ "cassandra" := PyDict cassandra_params ]} (PyInt 4)).2
     = (storage both_client_libraries {[ "cassandra" := PyDict cassandra_params ]} (PyInt 3)).2.
Proof. split; reflexivity. Qed.

(** * Further properties *)

(** ** Histories of calls *)
Section Histories.
Context `{Libraries}.

Lemma in_memory_step (s : InMemoryStorage.t) (o : op) (key : string) (l : list pyval) :
  InMemoryStorage.get_list s key = PyList l ->
  sets key o = false ->
  exists s', (call (Dict s) o).1 = Dict s'
    /\ InMemoryStorage.get_list s' key = PyList (l ++ appended key [o]).
Proof.
  intros Hl Hs. unfold InMemoryStorage.get_list in *.
  destruct o as [k v|k|k v|k]; simpl in *.
  - apply bool_decide_eq_false in Hs. eexists. split; [reflexivity|].
    simpl. by rewrite lookup_insert_ne, app_nil_r.
  - eexists. split; [reflexivity|]. by rewrite app_nil_r.
  - unfold InMemoryStorage.append_val, InMemoryStorage.dict_setdefault.
    case_bool_decide as Hk.
    + subst k. destruct (InMemoryStorage.storage s !! key) as [v0|] eqn:E.
      * subst v0. simpl. eexists. split; [reflexivity|].
        simpl. by rewrite lookup_insert_eq.
      * simplify_eq. simpl. eexists. split; [reflexivity|].
        simpl. by rewrite lookup_insert_eq.
    + rewrite app_nil_r.
      destruct (InMemoryStorage.storage s !! k) as [[| | |l0|]|] eqn:E; simpl;
        (eexists; split; [reflexivity|]); simpl; by rewrite ?lookup_insert_ne.
  - eexists. split; [reflexivity|]. by rewrite app_nil_r.
Qed.

Lemma appended_cons (key : string) (o : op) (ops : list op) :
  appended key (o :: ops) = appended key [o] ++ appended key ops.
Proof.
  destruct o as [k v|k|k v|k]; simpl; try done. by case_bool_decide.
Qed.

(** Appends accumulate, read by value. *)
Lemma appends_accumulate
  (s : InMemoryStorage.t) (ops : list op) (key : string) (l : list pyval) :
  InMemoryStorage.get_list s key = PyList l ->
  Forall (fun o => sets key o = false) ops ->
  (call (run (Dict s) ops) (GetList key)).2 = Ok (PyList (l ++ appended key ops)).
Proof.
  revert s l. induction ops as [|o ops IH]; intros s l Hl Hall.
  - simpl. by rewrite app_nil_r, Hl.
  - inversion Hall as [|? ? Ho Hops]; subst.
    destruct (in_memory_step s o key l Hl Ho) as (s' & Hs' & Hl').
    change (run (Dict s) (o :: ops)) with (run (call (Dict s) o).1 ops).
    rewrite Hs'.
    rewrite appended_cons, app_assoc. by apply IH.
Qed.

(** X1. On the in-memory adapter appends are never lost and keep their
    order. From a newly constructed adapter, after any calls that hand over
    immutable values only (so that no list object gets shared between two
    keys) and among which none is a [set_val] at [key], [get_list(key)] is
    the list of the values appended at [key], in call order; calls at other
    keys and calls that raise change nothing of it. *)
Theorem in_memory_appends_accumulate
  (config : pyval) (ops : list op) (key : string) :
  Forall (fun o => passes_immutable o = true) ops ->
  Forall (fun o => sets key o = false) ops ->
  (call (run (Dict (InMemoryStorage.__init__ config)) ops) (GetList key)).2
  = Ok (PyList (appended key ops)).
Proof.
  intros _ Hsets.
  by apply (appends_accumulate (InMemoryStorage.__init__ config) ops key []).
Qed.

End Histories.

(** An INSERT on an open handle. *)
Lemma execute_insert_open (c : CqlClient.connection) (ks k : string) (v : pyval)
  (t : list (string * pyval)) :
  CqlClient.current_table c = Ok (ks, t) ->
  CqlClient.execute c (CqlClient.INSERT k v)
  = (CqlClient.with_table c ks (t ++ [(k, v)]), Ok []).
Proof. intros Ht. simpl. by rewrite Ht. Qed.

(** ** What one call does to the store *)
Section Effects.
Context `{Libraries}.

(** A call leaves the in-memory adapter as it was or stores one value. *)
Lemma in_memory_call_shape (s : InMemoryStorage.t) (o : op) :
  (call (Dict s) o).1 = Dict s
  \/ exists k v,
       writes k o = true
       /\ call (Dict s) o
          = (Dict {| InMemoryStorage.name := InMemoryStorage.name s;
                     InMemoryStorage.storage := <[k := v]> (InMemoryStorage.storage s) |},
             Ok PyNone).
Proof.
  destruct s as [n d]. destruct o as [k v|k|k v|k]; simpl; [|by left| |by left].
  - right. exists k, v. split; [by apply bool_decide_eq_true|done].
  - unfold InMemoryStorage.append_val, InMemoryStorage.dict_setdefault. simpl.
    destruct (d !! k) as [[| | |l|]|] eqn:E; simpl; try by left.
    + right. exists k, (PyList (l ++ [v])). split; [by apply bool_decide_eq_true|done].
    + right. exists k, (PyList [v]). split; [by apply bool_decide_eq_true|].
      by rewrite insert_insert_eq.
Qed.

Lemma redis_call_shape (s : RedisStorage.t) (o : op) :
  (call (Redis s) o).1 = Redis s
  \/ exists k v,
       writes k o = true
       /\ call (Redis s) o
          = (Redis {| RedisStorage.name := RedisStorage.name s;
                      RedisStorage.storage :=
                        {| StrictRedis.connection_kwargs :=
                             StrictRedis.connection_kwargs (RedisStorage.storage s);
                           StrictRedis.db :=
                             <[k := StrictRedis.RString (redis_encode v)]>
                               (StrictRedis.db (RedisStorage.storage s)) |} |},
             Ok PyNone).
Proof.
  destruct o as [k v|k|k v|k]; simpl; try by left.
  right. exists k, v. split; [by apply bool_decide_eq_true|done].
Qed.

Lemma cassandra_call_shape (s : CassandraStorage.t) (o : op) :
  (call (Cassandra s) o).1 = Cassandra s
  \/ exists ks t k v,
       writes k o = true
       /\ CqlClient.current_table (CassandraStorage.storage s) = Ok (ks, t)
       /\ call (Cassandra s) o
          = (Cassandra {| CassandraStorage.name := CassandraStorage.name s;
                          CassandraStorage.storage :=
                            CqlClient.with_table (CassandraStorage.storage s) ks
                              (t ++ [(k, v)]) |},
             Ok PyNone).
Proof.
  destruct s as [n c].
  destruct (CqlClient.current_table c) as [[ks t]|e] eqn:Ht;
    destruct o as [k v|k|k v|k]; cbn [call];
    unfold CassandraStorage.set_val, CassandraStorage.get_val,
      CassandraStorage.append_val, CassandraStorage.get_list;
    cbn [CassandraStorage.storage CassandraStorage.name].
  - rewrite (execute_insert_open c ks k v t Ht). right. exists ks, t, k, v.
    split; [by apply bool_decide_eq_true|done].
  - unfold CqlClient.execute. rewrite Ht. by left.
  - destruct (CassandraStorage.dumps v) as [s0|e]; [|by left].
    rewrite (execute_insert_open c ks k (PyStr s0) t Ht). right. exists ks, t, k, (PyStr s0).
    split; [by apply bool_decide_eq_true|done].
  - unfold CqlClient.execute. rewrite Ht. by left.
  - unfold CqlClient.execute. rewrite Ht. by left.
  - unfold CqlClient.execute. rewrite Ht. by left.
  - destruct (CassandraStorage.dumps v) as [s0|e']; [|by left].
    unfold CqlClient.execute. rewrite Ht. by left.
  - unfold CqlClient.execute. rewrite Ht. by left.
Qed.

(** X3. On every adapter a call changes the store only when it is a
    [set_val] or an [append_val] that returns normally: [get_val] and
    [get_list] change nothing, and a call that raises leaves the store as it
    was. *)
Theorem call_changes_only_on_successful_write (h : handle) (o : op) :
  (call h o).1 = h
  \/ ((exists key, writes key o = true) /\ (call h o).2 = Ok PyNone).
Proof.
  destruct h as [s|s|s].
  - destruct (in_memory_call_shape s o) as [Hsame|(k & v & Hw & Hc)]; [by left|].
    right. rewrite Hc. eauto.
  - destruct (redis_call_shape s o) as [Hsame|(k & v & Hw & Hc)]; [by left|].
    right. rewrite Hc. eauto.
  - destruct (cassandra_call_shape s o) as [Hsame|(ks & t & k & v & Hw & _ & Hc)]; [by left|].
    right. rewrite Hc. eauto.
Qed.





End Effects.

Section Invariants.
Context `{Libraries}.

Lemma call_present (h : handle) (o : op) (key : string) :
  present key h -> present key (call h o).1.
Proof.
  intros Hp. destruct h as [s|s|s].
  - destruct (in_memory_call_shape s o) as [->|(k & v & _ & ->)]; [done|].
    simpl in *. destruct (decide (k = key)) as [->|Hne].
    + rewrite lookup_insert_eq. eauto.
    + by rewrite lookup_insert_ne.
  - destruct (redis_call_shape s o) as [->|(k & v & _ & ->)]; [done|].
    simpl in *. destruct (decide (k = key)) as [->|Hne].
    + rewrite lookup_insert_eq. eauto.
    + by rewrite lookup_insert_ne.
  - destruct (cassandra_call_shape s o) as [->|(ks & t & k & v & _ & Ht & ->)]; [done|].
    destruct Hp as (ks' & t' & Ht' & Hin). rewrite Ht in Ht'. simplify_eq.
    exists ks', (t' ++ [(k, v)]). split.
    + simpl. by eapply current_table_with_table.
    + rewrite fmap_app. apply elem_of_app. by left.
Qed.

(** X5. No operation deletes: a key that has something stored stays stored
    after any calls, on every adapter. *)
Theorem stored_keys_stay (h : handle) (ops : list op) (key : string) :
  present key h -> present key (run h ops).
Proof.
  revert h. induction ops as [|o ops IH]; intros h Hp; [done|].
  apply IH. by apply call_present.
Qed.

Lemma redis_step_list (s : RedisStorage.t) (o : op) (key : string) (v : pyval) :
  (call (call (Redis s) o).1 (GetList key)).2 = Ok v ->
  (call (Redis s) (GetList key)).2 = Ok v.
Proof.
  destruct (redis_call_shape s o) as [->|(k & v0 & _ & ->)]; [done|].
  simpl. unfold RedisStorage.get_list, StrictRedis.lrange. simpl.
  destruct (decide (k = key)) as [->|Hne].
  - by rewrite lookup_insert_eq.
  - by rewrite lookup_insert_ne.
Qed.

Lemma redis_call_stays (s : RedisStorage.t) (o : op) :
  exists s', (call (Redis s) o).1 = Redis s'.
Proof.
  destruct (redis_call_shape s o) as [->|(k & v0 & _ & ->)]; eauto.
Qed.

(** X6. Through the Redis adapter no list is ever created or extended:
    whatever [get_list(key)] returns after any calls on the adapter, it
    returned already before them. *)
Theorem redis_lists_never_grow
  (s : RedisStorage.t) (ops : list op) (key : string) (v : pyval) :
  (call (run (Redis s) ops) (GetList key)).2 = Ok v ->
  (call (Redis s) (GetList key)).2 = Ok v.
Proof.
  revert s. induction ops as [|o ops IH]; intros s Hv; [done|].
  change (run (Redis s) (o :: ops)) with (run (call (Redis s) o).1 ops) in Hv.
  destruct (redis_call_stays s o) as [s' Hs']. 
  apply redis_step_list with o. rewrite Hs' in *. by apply IH.
Qed.

End Invariants.

(** ** The in-memory adapter, further *)

(** X8. [keys()] of the in-memory adapter lists, once each, exactly the keys
    on which [get_val] does not raise. *)
Theorem in_memory_keys_exact (s : InMemoryStorage.t) :
  exists ks,
    InMemoryStorage.keys s = PyList (PyStr <$> ks)
    /\ NoDup ks
    /\ forall key, key ∈ ks <-> exists v, InMemoryStorage.get_val s key = Ok v.
Proof.
  exists (elements (dom (InMemoryStorage.storage s))). split; [done|]. split.
  - apply NoDup_elements.
  - intros key. rewrite elem_of_elements, elem_of_dom.
    unfold InMemoryStorage.get_val, is_Some.
    destruct (InMemoryStorage.storage s !! key) as [v|]; split.
    + intros _. by exists v.
    + intros _. by exists v.
    + by intros [v Hv].
    + by intros [v Hv].
Qed.


Section Mixed.
Context `{Libraries}.

(** X10. [get_list(key)] right after [set_val(key, v)]: the in-memory
    adapter returns [v] itself, whatever it is; the Redis adapter raises the
    server's wrong-type error, the key now holding a string. *)
Theorem set_val_then_get_list (key : string) (v : pyval) :
  (forall s : InMemoryStorage.t,
      InMemoryStorage.get_list (InMemoryStorage.set_val s key v) key = v)
  /\ (forall s : RedisStorage.t,
        RedisStorage.get_list (RedisStorage.set_val s key v) key
        = Raise StrictRedis.wrongtype).
Proof.
  split; intros s.
  - unfold InMemoryStorage.get_list, InMemoryStorage.set_val. simpl.
    by rewrite lookup_insert_eq.
  - unfold RedisStorage.get_list, RedisStorage.set_val, StrictRedis.lrange, StrictRedis.set.
    simpl. by rewrite lookup_insert_eq.
Qed.

(** X12. After a [set_val] or [append_val] at [key] that returned normally,
    [keys(pattern)] of the Cassandra adapter lists the row of [key], whatever
    the pattern is. *)
Theorem cassandra_keys_after_write
  (s : CassandraStorage.t) (o : op) (key pattern : string) :
  writes key o = true ->
  (call (Cassandra s) o).2 = Ok PyNone ->
  exists s' rows,
    (call (Cassandra s) o).1 = Cassandra s'
    /\ (CassandraStorage.keys s' pattern).2 = Ok (PyList rows)
    /\ PyList [PyStr key] ∈ rows.
Proof.
  intros Hw Hok. destruct s as [n c].
  assert (forall ks t v,
    CqlClient.current_table c = Ok (ks, t) ->
    exists rows,
      (CassandraStorage.keys
         {| CassandraStorage.name := n;
            CassandraStorage.storage := CqlClient.with_table c ks (t ++ [(key, v)]) |}
         pattern).2 = Ok (PyList rows)
      /\ PyList [PyStr key] ∈ rows) as Hkeys.
  { intros ks t v Ht. unfold CassandraStorage.keys, CqlClient.execute.
    cbn [CassandraStorage.storage].
    rewrite (current_table_with_table _ ks t _ Ht). simpl. eexists. split; [reflexivity|].
    rewrite fmap_app. apply list_elem_of_fmap_2, elem_of_app. right.
    simpl. apply list_elem_of_here. }
  destruct o as [k v|k|k v|k]; try discriminate;
    apply bool_decide_eq_true in Hw; subst k; cbn [call] in *.
  - unfold CassandraStorage.set_val in *. cbn [CassandraStorage.storage] in *.
    destruct (CqlClient.current_table c) as [[ks t]|e] eqn:Ht.
    + rewrite (execute_insert_open c ks key v t Ht).
      destruct (Hkeys ks t v eq_refl) as (rows & Hr & Hin). eauto.
    + exfalso. unfold CqlClient.execute in Hok. rewrite Ht in Hok. discriminate.
  - unfold CassandraStorage.append_val in *. cbn [CassandraStorage.storage] in *.
    destruct (CassandraStorage.dumps v) as [s0|e]; [|discriminate].
    destruct (CqlClient.current_table c) as [[ks t]|e] eqn:Ht.
    + rewrite (execute_insert_open c ks key (PyStr s0) t Ht).
      destruct (Hkeys ks t (PyStr s0) eq_refl) as (rows & Hr & Hin). eauto.
    + exfalso. unfold CqlClient.execute in Hok. rewrite Ht in Hok. discriminate.
Qed.

End Mixed.

(** X11. On an open Cassandra handle [get_val] of a key with no row returns
    [None] without raising, and after [set_val(key, v)] it returns the row
    [[v]], not [v]. *)
Theorem cassandra_set_val_get_val
  (s : CassandraStorage.t) (key ks : string) (v : pyval) (t : list (string * pyval)) :
  CqlClient.current_table (CassandraStorage.storage s) = Ok (ks, t) ->
  key ∉ t.*1 ->
  (CassandraStorage.get_val s key).2 = Ok PyNone
  /\ (CassandraStorage.set_val s key v).2 = Ok PyNone
  /\ (CassandraStorage.get_val (CassandraStorage.set_val s key v).1 key).2
     = Ok (PyList [v]).
Proof.
  intros Ht Hk. unfold CassandraStorage.get_val, CassandraStorage.set_val.
  rewrite (execute_insert_open _ ks key v t Ht). cbn [fst snd CassandraStorage.storage].
  unfold CqlClient.execute.
  rewrite (current_table_with_table _ ks t _ Ht), Ht. simpl.
  rewrite filter_app, filter_cons, filter_nil, (filter_absent t key Hk). simpl.
  by rewrite decide_True.
Qed.

(** ** Constructors and the factory, further *)

(** What a successful construction of the Cassandra adapter tells. *)
Lemma cassandra_init_inv (env : environment) (config : pyval) (s : CassandraStorage.t) :
  CassandraStorage.__init__ env config = Ok s ->
  exists cl h p ks,
    cql env = Some cl
    /\ getitem config "host" = Ok h
    /\ getitem config "port" = Ok p
    /\ getitem config "keyspace" = Ok (PyStr ks)
    /\ is_Some (cl !! ks)
    /\ s = {| CassandraStorage.name := "cassandra";
              CassandraStorage.storage :=
                {| CqlClient.host := h; CqlClient.port := p;
                   CqlClient.cql_version := "3.0.0";
                   CqlClient.cluster_state := cl;
                   CqlClient.keyspace := Some ks |} |}.
Proof.
  unfold CassandraStorage.__init__.
  destruct (cql env) as [cl|]; [|discriminate].
  destruct (getitem config "host") as [h|]; [|discriminate].
  destruct (getitem config "port") as [p|]; [|discriminate].
  simpl. destruct (getitem config "keyspace") as [ks|]; [|discriminate].
  simpl. destruct ks as [| |ks| |]; try discriminate.
  destruct (cl !! ks) as [t|] eqn:Hks; [|discriminate].
  simpl. intros Hs. simplify_eq. exists cl, h, p, ks. by rewrite Hks.
Qed.



(** X15. When the selected backend is Redis or Cassandra and its parameters
    are not a mapping (for instance [None]), the factory raises [TypeError]
    on storing 'db' and leaves the configuration as it was; no adapter is
    constructed. *)
Theorem storage_rejects_parameters_not_a_mapping
  (env : environment) (cfg : gmap string pyval) (index v : pyval) :
  cfg !! "dict" = None ->
  cfg !! "redis" = Some v \/ (cfg !! "redis" = None /\ cfg !! "cassandra" = Some v) ->
  (forall d, v <> PyDict d) ->
  exists msg, storage env cfg index = (cfg, Raise (TypeError msg)).
Proof.
  intros Hd Hsel Hv. unfold storage. rewrite Hd.
  destruct Hsel as [Hr|[Hr Hc]]; rewrite Hr; [|rewrite Hc];
    destruct v as [| | | |d]; simpl; eauto; by destruct (Hv d).
Qed.


(** X17. The 'db' field is written before the adapter is constructed and
    stays written when the construction fails: with Redis selected and the
    [redis] library missing the factory raises [ImportError] and the caller's
    configuration holds the index all the same. *)
Theorem storage_writes_db_before_failing
  (env : environment) (cfg : gmap string pyval) (index : pyval) (sub : gmap string pyval) :
  cfg !! "dict" = None ->
  cfg !! "redis" = Some (PyDict sub) ->
  redis env = None ->
  storage env cfg index
  = (<["redis" := PyDict (<["db" := index]> sub)]> cfg,
     Raise (ImportError "redis-py is required to use Redis as storage.")).
Proof.
  intros Hd Hr Hlib. unfold storage. rewrite Hd, Hr. simpl.
  unfold RedisStorage.__init__. by rewrite Hlib.
Qed.

(** X18. The [name] of the adapter the factory returns is the backend key
    it selected: 'dict' if the configuration has it, else 'redis' if it has
    that, else 'cassandra'; the configuration has that key. *)
Theorem storage_name_is_selected_key
  (env : environment) (cfg cfg' : gmap string pyval) (index : pyval) (h : handle) :
  storage env cfg index = (cfg', Ok h) ->
  name_of h
  = match cfg !! "dict", cfg !! "redis" with
    | Some _, _ => "dict"
    | None, Some _ => "redis"
    | None, None => "cassandra"
    end
  /\ is_Some (cfg !! name_of h).
Proof.
  unfold storage.
  destruct (cfg !! "dict") as [c|] eqn:Hd.
  { intros Hs. simplify_eq. simpl. by rewrite Hd. }
  destruct (cfg !! "redis") as [c|] eqn:Hr.
  { destruct (setitem c "db" index) as [c'|]; [|discriminate].
    unfold RedisStorage.__init__. destruct (redis env); [|discriminate].
    destruct (kwargs_of c'); [|discriminate].
    simpl. intros Hs. simplify_eq. simpl. by rewrite Hr. }
  destruct (cfg !! "cassandra") as [c|] eqn:Hc; [|discriminate].
  destruct (setitem c "db" index) as [c'|]; [|discriminate].
  destruct (CassandraStorage.__init__ env c') as [s|] eqn:Hs; [|discriminate].
  apply cassandra_init_inv in Hs as (cl & hh & p & ks & _ & _ & _ & _ & _ & ->).
  simpl. intros Heq. simplify_eq. simpl. by rewrite Hc.
Qed.

(** ** Examples of the further properties *)

Lemma in_memory_appends_accumulate_witness :
  (call (H := text_libraries)
     (run (H := text_libraries) (Dict (InMemoryStorage.__init__ PyNone))
        [AppendVal "h1" (PyInt 1); SetVal "a" (PyStr "s"); AppendVal "a" (PyInt 7);
         AppendVal "h1" (PyInt 2); GetVal "zz"; AppendVal "h1" (PyInt 3)])
     (GetList "h1")).2
  = Ok (PyList [PyInt 1; PyInt 2; PyInt 3]).
Proof.
  apply (in_memory_appends_accumulate (H := text_libraries) PyNone
           [AppendVal "h1" (PyInt 1); SetVal "a" (PyStr "s"); AppendVal "a" (PyInt 7);
            AppendVal "h1" (PyInt 2); GetVal "zz"; AppendVal "h1" (PyInt 3)]
           "h1").
  - repeat constructor.
  - repeat constructor.
Defined.


Lemma stored_keys_stay_witness :
  present "h1"
    (run (H := text_libraries) (Redis redis_with_bucket)
       [SetVal "h1" (PyStr "v"); AppendVal "h1" (PyInt 1); SetVal "a" (PyInt 2)]).
Proof.
  apply (stored_keys_stay (H := text_libraries) (Redis redis_with_bucket)
           [SetVal "h1" (PyStr "v"); AppendVal "h1" (PyInt 1); SetVal "a" (PyInt 2)] "h1").
  simpl. eexists. reflexivity.
Defined.

Lemma redis_lists_never_grow_witness :
  (call (H := text_libraries) (Redis redis_with_bucket) (GetList "h1")).2
  = Ok (PyList [PyStr "[1, 2]"; PyStr "[3, 4]"]).
Proof.
  apply (redis_lists_never_grow (H := text_libraries) redis_with_bucket
           [AppendVal "h1" (PyList [PyInt 5; PyInt 6]); SetVal "a" (PyInt 2)] "h1").
  reflexivity.
Defined.

Lemma redis_get_list_entries_witness :
  RedisStorage.get_list redis_with_bucket "h1"
  = Ok (PyList [PyStr "[1, 2]"; PyStr "[3, 4]"]).
Proof.
  apply (redis_get_list_entries redis_with_bucket "h1" ["[1, 2]"; "[3, 4]"]).
  reflexivity.
Defined.


Lemma cassandra_set_val_get_val_witness :
  (CassandraStorage.get_val open_cassandra "h1").2 = Ok PyNone
  /\ (CassandraStorage.set_val open_cassandra "h1" (PyStr "v")).2 = Ok PyNone
  /\ (CassandraStorage.get_val
        (CassandraStorage.set_val open_cassandra "h1" (PyStr "v")).1 "h1").2
     = Ok (PyList [PyStr "v"]).
Proof.
  apply (cassandra_set_val_get_val open_cassandra "h1" "lsh_ks" (PyStr "v") []).
  - reflexivity.
  - apply not_elem_of_nil.
Defined.

Lemma cassandra_keys_after_write_witness :
  exists s' rows,
    (call (H := text_libraries) (Cassandra open_cassandra)
       (AppendVal "h1" (PyList [PyInt 1]))).1 = Cassandra s'
    /\ (CassandraStorage.keys s' "zz*").2 = Ok (PyList rows)
    /\ PyList [PyStr "h1"] ∈ rows.
Proof.
  apply (cassandra_keys_after_write (H := text_libraries) open_cassandra
           (AppendVal "h1" (PyList [PyInt 1])) "h1" "zz*"); reflexivity.
Defined.



Lemma storage_rejects_parameters_not_a_mapping_witness :
  exists msg,
    storage both_client_libraries {[ "redis" := PyNone ]} (PyInt 3)
    = ({[ "redis" := PyNone ]}, Raise (TypeError msg)).
Proof.
  apply (storage_rejects_parameters_not_a_mapping both_client_libraries
           {[ "redis" := PyNone ]} (PyInt 3) PyNone).
  - reflexivity.
  - left. reflexivity.
  - discriminate.
Defined.


Lemma storage_writes_db_before_failing_witness :
  storage no_client_libraries {[ "redis" := PyDict redis_params ]} (PyInt 3)
  = (<["redis" := PyDict (<["db" := PyInt 3]> redis_params)]>
       {[ "redis" := PyDict redis_params ]},
     Raise (ImportError "redis-py is required to use Redis as storage.")).
Proof.
  apply (storage_writes_db_before_failing no_client_libraries
           {[ "redis" := PyDict redis_params ]} (PyInt 3) redis_params); reflexivity.
Defined.

Lemma storage_name_is_selected_key_witness :
  name_of (Cassandra open_cassandra) = "cassandra"
  /\ is_Some (({[ "cassandra" := PyDict cassandra_params ]} : gmap string pyval)
                !! name_of (Cassandra open_cassandra)).
Proof.
  assert (storage both_client_libraries {[ "cassandra" := PyDict cassandra_params ]} (PyInt 3)
          = ({[ "cassandra" := PyDict (<["db" := PyInt 3]> cassandra_params) ]},
             Ok (Cassandra open_cassandra))) as Hs by reflexivity.
  exact (storage_name_is_selected_key _ _ _ _ _ Hs).
Defined.
